(** * ColumnDesign: buckling formulas for axially loaded columns

    A shallow embedding of [column_design.py] (class [ColumnDesign]) and the
    properties of its ten static methods.

    Modelling conventions.

    - Numbers.  A Python [float] (or [int]) and a [numpy.float64] are both
      idealised as a real number, extended with the three special values
      that numpy arithmetic produces instead of raising: [+inf], [-inf] and
      [nan].  Rounding, overflow and the sign of zero are not modelled.
    - Dynamic type.  Every number carries its [kind]: [Py] for a Python
      number, [Np] for a [numpy.float64].  The kind decides what a division
      by zero does: between two Python numbers it raises
      [ZeroDivisionError]; as soon as one operand is a [numpy.float64] it
      returns [inf] or [nan] (numpy only emits a warning on stderr, which is
      not modelled).  [np.sqrt] always returns a [numpy.float64], and an
      arithmetic operation with a [numpy.float64] operand returns one.
    - [None].  A Python value that is either a number or [None] is an
      [option num]; arithmetic on [None] raises [TypeError].
    - Effects.  A call is a function from the console (the lines printed so
      far) to an outcome (a returned value or a raised exception) and the
      new console. *)

From Stdlib Require Import Reals Lra List String.
Import ListNotations.

Open Scope R_scope.

(** ** Numbers *)

Inductive xreal : Type :=
| Fin (r : R)
| PInf
| NInf
| NaN.

Inductive sign : Type := Neg | Zero | Pos.

Definition Rsign (r : R) : sign :=
  match total_order_T 0 r with
  | inleft (left _) => Pos
  | inleft (right _) => Zero
  | inright _ => Neg
  end.

Definition sign_mul (a b : sign) : sign :=
  match a, b with
  | Zero, _ | _, Zero => Zero
  | Pos, Pos | Neg, Neg => Pos
  | Pos, Neg | Neg, Pos => Neg
  end.

(** Sign of an extended real that is not [nan]. *)
Definition xsign (x : xreal) : sign :=
  match x with
  | Fin r => Rsign r
  | PInf => Pos
  | NInf => Neg
  | NaN => Zero
  end.

(** The infinity of a given sign; the sign [Zero] stands for an undefined
    form ([0 * inf], [0 / 0]) and gives [nan]. *)
Definition inf_of (s : sign) : xreal :=
  match s with
  | Pos => PInf
  | Neg => NInf
  | Zero => NaN
  end.

Definition is_zero (x : xreal) : bool :=
  match x with
  | Fin r => if Req_dec_T r 0 then true else false
  | _ => false
  end.

Definition xmul (a b : xreal) : xreal :=
  match a, b with
  | NaN, _ | _, NaN => NaN
  | Fin x, Fin y => Fin (x * y)
  | _, _ => inf_of (sign_mul (xsign a) (xsign b))
  end.

(** IEEE division, which never traps: [x / 0] is an infinity of the sign of
    [x], or [nan] when [x] is zero. *)
Definition xdiv (a b : xreal) : xreal :=
  match a, b with
  | NaN, _ | _, NaN => NaN
  | Fin x, Fin y => if is_zero b then inf_of (Rsign x) else Fin (x / y)
  | Fin _, _ => Fin 0
  | _, Fin y => if is_zero b then a else inf_of (sign_mul (xsign a) (Rsign y))
  | _, _ => NaN
  end.

Definition xsub (a b : xreal) : xreal :=
  match a, b with
  | NaN, _ | _, NaN => NaN
  | Fin x, Fin y => Fin (x - y)
  | Fin _, PInf => NInf
  | Fin _, NInf => PInf
  | PInf, PInf | NInf, NInf => NaN
  | PInf, _ => PInf
  | NInf, _ => NInf
  end.

Definition xsqrt (a : xreal) : xreal :=
  match a with
  | Fin x => if Rlt_dec x 0 then NaN else Fin (sqrt x)
  | PInf => PInf
  | NInf | NaN => NaN
  end.

Definition xgt (a b : xreal) : bool :=
  match a, b with
  | NaN, _ | _, NaN => false
  | Fin x, Fin y => if Rgt_dec x y then true else false
  | PInf, PInf => false
  | PInf, _ => true
  | _, NInf => match a with NInf => false | _ => true end
  | _, _ => false
  end.

Inductive kind : Type := Py | Np.

Definition kjoin (a b : kind) : kind :=
  match a, b with
  | Py, Py => Py
  | _, _ => Np
  end.

Record num : Type := Num { nkind : kind; nval : xreal }.

(** A Python value that is a number or [None]. *)
Definition pyval : Type := option num.

(** A finite number of either kind. *)
Definition number (k : kind) (r : R) : pyval := Some (Num k (Fin r)).

(** A finite Python number, as a caller writes it: [2.0], [100], [0]. *)
Definition pyfloat (r : R) : pyval := number Py r.

(** A finite [numpy.float64]. *)
Definition npfloat (r : R) : pyval := number Np r.

(** [np.pi] is a Python float. *)
Definition np_pi : pyval := pyfloat PI.

(** ** Console, exceptions and the call monad *)

Inductive line : Type :=
| Text (s : string)
| CritLoadText (p : pyval).  (* 'Buckling critical load = {} N'.format(p) *)

Definition console : Type := list line.

Inductive exn : Type := ZeroDivisionError | TypeError.

Inductive outcome (A : Type) : Type :=
| Ret (a : A)
| Raise (e : exn).

Arguments Ret {A} a.
Arguments Raise {A} e.

Definition M (A : Type) : Type := console -> outcome A * console.

Definition ret {A} (a : A) : M A := fun s => (Ret a, s).

Definition raise {A} (e : exn) : M A := fun s => (Raise e, s).

Definition bind {A B} (m : M A) (f : A -> M B) : M B :=
  fun s =>
    match m s with
    | (Ret a, s') => f a s'
    | (Raise e, s') => (Raise e, s')
    end.

Definition print (l : line) : M unit := fun s => (Ret tt, s ++ [l]).

(** [try: body / except <catches>: handler] *)
Definition try_except {A} (body : M A) (catches : exn -> bool) (handler : M A)
  : M A :=
  fun s =>
    match body s with
    | (Raise e, s') => if catches e then handler s' else (Raise e, s')
    | r => r
    end.

Definition only_ZeroDivisionError (e : exn) : bool :=
  match e with
  | ZeroDivisionError => true
  | TypeError => false
  end.

Definition any_Exception (e : exn) : bool := true.

Declare Scope py_scope.
Delimit Scope py_scope with py.
Notation "x <- m ;; k" := (bind m (fun x => k))
  (at level 61, m at next level, right associativity) : py_scope.
Notation "m ;; k" := (bind m (fun _ => k))
  (at level 61, right associativity) : py_scope.
Open Scope py_scope.

(** ** Operators *)

Definition arith (f : xreal -> xreal -> xreal) (a b : pyval) : M pyval :=
  match a, b with
  | Some x, Some y =>
      ret (Some (Num (kjoin (nkind x) (nkind y)) (f (nval x) (nval y))))
  | _, _ => raise TypeError
  end.

(** [a * b] *)
Definition py_mul : pyval -> pyval -> M pyval := arith xmul.

(** [a - b] *)
Definition py_sub : pyval -> pyval -> M pyval := arith xsub.

(** [a ** 2] *)
Definition py_pow2 (a : pyval) : M pyval := arith xmul a a.

(** [a / b]: between Python numbers a zero divisor raises; with a
    [numpy.float64] on either side the IEEE result is returned. *)
Definition py_div (a b : pyval) : M pyval :=
  match a, b with
  | Some x, Some y =>
      match nkind x, nkind y with
      | Py, Py =>
          if is_zero (nval y) then raise ZeroDivisionError
          else ret (Some (Num Py (xdiv (nval x) (nval y))))
      | _, _ => ret (Some (Num Np (xdiv (nval x) (nval y))))
      end
  | _, _ => raise TypeError
  end.

(** [np.sqrt(a)] *)
Definition np_sqrt (a : pyval) : M pyval :=
  match a with
  | Some x => ret (Some (Num Np (xsqrt (nval x))))
  | None => raise TypeError
  end.

(** [a > b] *)
Definition py_gt (a b : pyval) : M (option bool) :=
  match a, b with
  | Some x, Some y => ret (Some (xgt (nval x) (nval y)))
  | _, _ => raise TypeError
  end.

(** Truth value of the result of [is_Euler_column] in an [if]. *)
Definition truthy (b : option bool) : bool :=
  match b with
  | Some true => true
  | _ => false
  end.

(** ** The methods of [ColumnDesign] *)

Definition area_req_compression (F S : pyval) : M pyval :=
  py_div F S.

Definition Euler_buckling_critical_load_body (E I L C : pyval) : M pyval :=
  pi2 <- py_pow2 np_pi ;;
  t1 <- py_mul C pi2 ;;
  t2 <- py_mul t1 E ;;
  t3 <- py_mul t2 I ;;
  l2 <- py_pow2 L ;;
  py_div t3 l2.

Definition Euler_buckling_critical_load (E I L C : pyval) : M pyval :=
  try_except (Euler_buckling_critical_load_body E I L C)
    only_ZeroDivisionError
    (print (Text "Invalid length") ;; ret None).

Definition radius_gyration_body (I A : pyval) : M pyval :=
  q <- py_div I A ;;
  np_sqrt q.

Definition radius_gyration (I A : pyval) : M pyval :=
  try_except (radius_gyration_body I A)
    only_ZeroDivisionError
    (print (Text "Invalid area") ;; ret None).

Definition slenderness_ratio (L k : pyval) : M pyval :=
  try_except (py_div L k)
    only_ZeroDivisionError
    (print (Text "Invalid radius of gyration") ;; ret None).

Definition Euler_unit_buckling_critical_load (E I L C A : pyval) : M pyval :=
  try_except
    (k <- radius_gyration I A ;;
     pi2 <- py_pow2 np_pi ;;
     t1 <- py_mul C pi2 ;;
     t2 <- py_mul t1 E ;;
     lk <- slenderness_ratio L k ;;
     lk2 <- py_pow2 lk ;;
     py_div t2 lk2)
    only_ZeroDivisionError
    (print (Text "Invalid slenderness ratio") ;; ret None).

Definition is_Euler_column (C E Sy L A I : pyval) : M (option bool) :=
  try_except
    (k <- radius_gyration I A ;;
     lk <- slenderness_ratio L k ;;
     pi2 <- py_pow2 np_pi ;;
     t1 <- py_mul (pyfloat 2) pi2 ;;
     t2 <- py_mul t1 C ;;
     t3 <- py_mul t2 E ;;
     q <- py_div t3 Sy ;;
     lk1 <- np_sqrt q ;;
     py_gt lk lk1)
    only_ZeroDivisionError
    (print (Text "Invalid input data") ;; ret None).

Definition Jhonson_unit_buckling_critical_load (E I L C A Sy : pyval)
  : M pyval :=
  try_except
    (k <- radius_gyration I A ;;
     n1 <- py_mul Sy L ;;
     d0 <- py_mul (pyfloat 2) np_pi ;;
     d1 <- py_mul d0 k ;;
     q <- py_div n1 d1 ;;
     a1 <- py_pow2 q ;;
     ce <- py_mul C E ;;
     a2 <- py_div (pyfloat 1) ce ;;
     t <- py_mul a1 a2 ;;
     py_sub Sy t)
    only_ZeroDivisionError
    (print (Text "Invalid input data") ;; ret None).

Definition Jhonson_buckling_critical_load (E I L C A Sy : pyval) : M pyval :=
  unit_crit_load <- Jhonson_unit_buckling_critical_load E I L C A Sy ;;
  py_mul unit_crit_load A.

Definition SF_compression (S_allow F A : pyval) : M pyval :=
  try_except
    (S_compr <- py_div F A ;;
     py_div S_allow S_compr)
    only_ZeroDivisionError
    (print (Text "Invalid input data") ;; ret None).

Definition Euler_used : line :=
  Text "Euler buckling critical load formula is used".

Definition Johnson_used : line :=
  Text "Johnson buckling critical load formula is used".

Definition SF_buckling (E I L C A Sy F : pyval) : M pyval :=
  try_except
    (is_Euler <- is_Euler_column C E Sy L A I ;;
     p_crit <- (if truthy is_Euler
                then print Euler_used ;;
                     Euler_buckling_critical_load E I L C
                else print Johnson_used ;;
                     Jhonson_buckling_critical_load E I L C A Sy) ;;
     print (CritLoadText p_crit) ;;
     py_div p_crit F)
    any_Exception
    (print (Text "Invalid input data") ;; ret None).

(** ** History independence *)

(** A call is deterministic when its outcome and the lines it prints are the
    same whatever was printed before it. *)
Definition deterministic {A} (m : M A) : Prop :=
  exists (r : outcome A) (out : list line), forall s, m s = (r, s ++ out).

(** ** Evaluation lemmas for the operators *)

Lemma is_zero_nonzero (r : R) : r <> 0 -> is_zero (Fin r) = false.
Proof.
  intros H. unfold is_zero. destruct (Req_dec_T r 0); [contradiction | reflexivity].
Qed.

Lemma is_zero_zero : is_zero (Fin 0) = true.
Proof.
  unfold is_zero. destruct (Req_dec_T 0 0) as [_ | H]; [reflexivity | now elim H].
Qed.

Lemma xdiv_fin (a b : R) : b <> 0 -> xdiv (Fin a) (Fin b) = Fin (a / b).
Proof.
  intros H. unfold xdiv. now rewrite is_zero_nonzero.
Qed.

Lemma xsqrt_fin (a : R) : 0 <= a -> xsqrt (Fin a) = Fin (sqrt a).
Proof.
  intros H. unfold xsqrt. destruct (Rlt_dec a 0); [lra | reflexivity].
Qed.

Lemma Rsign_pos (r : R) : 0 < r -> Rsign r = Pos.
Proof.
  intros H. unfold Rsign.
  destruct (total_order_T 0 r) as [[Hlt | Heq] | Hgt]; try reflexivity; lra.
Qed.

Lemma Rsign_neg (r : R) : r < 0 -> Rsign r = Neg.
Proof.
  intros H. unfold Rsign.
  destruct (total_order_T 0 r) as [[Hlt | Heq] | Hgt]; try reflexivity; lra.
Qed.

Lemma Rsign_zero : Rsign 0 = Zero.
Proof.
  unfold Rsign.
  destruct (total_order_T 0 0) as [[Hlt | Heq] | Hgt]; try reflexivity; lra.
Qed.

Lemma py_mul_number k1 k2 a b s :
  py_mul (number k1 a) (number k2 b) s = (Ret (number (kjoin k1 k2) (a * b)), s).
Proof. reflexivity. Qed.

Lemma py_sub_number k1 k2 a b s :
  py_sub (number k1 a) (number k2 b) s = (Ret (number (kjoin k1 k2) (a - b)), s).
Proof. reflexivity. Qed.

Lemma py_pow2_number k a s :
  py_pow2 (number k a) s = (Ret (number k (a * a)), s).
Proof. destruct k; reflexivity. Qed.

Lemma py_div_number k1 k2 a b s :
  b <> 0 ->
  py_div (number k1 a) (number k2 b) s = (Ret (number (kjoin k1 k2) (a / b)), s).
Proof.
  intros H. unfold py_div, number; cbn [nkind nval].
  rewrite is_zero_nonzero, xdiv_fin by assumption.
  destruct k1, k2; reflexivity.
Qed.

Lemma py_div_Py_zero (x : xreal) s :
  py_div (Some (Num Py x)) (pyfloat 0) s = (Raise ZeroDivisionError, s).
Proof.
  unfold py_div, pyfloat, number; cbn [nkind nval]. now rewrite is_zero_zero.
Qed.

Lemma py_div_number_zero a s :
  py_div (number Py a) (number Py 0) s = (Raise ZeroDivisionError, s).
Proof. apply py_div_Py_zero. Qed.

Lemma np_sqrt_number k a s :
  0 <= a -> np_sqrt (number k a) s = (Ret (number Np (sqrt a)), s).
Proof.
  intros H. unfold np_sqrt, number; cbn [nval]. now rewrite xsqrt_fin.
Qed.

Lemma py_gt_number k1 k2 a b s :
  py_gt (number k1 a) (number k2 b) s
  = (Ret (Some (if Rgt_dec a b then true else false)), s).
Proof. reflexivity. Qed.


Lemma kjoin_Py_r k : kjoin k Py = k.
Proof. now destruct k. Qed.

Lemma kjoin_idem k : kjoin k k = k.
Proof. now destruct k. Qed.

(** Stepping through a sequence of calls. *)

Lemma bind_Ret {A B} (m : M A) (f : A -> M B) s a s' :
  m s = (Ret a, s') -> bind m f s = f a s'.
Proof. intros H. unfold bind. now rewrite H. Qed.


Lemma try_except_Ret {A} (body : M A) c h s a s' :
  body s = (Ret a, s') -> try_except body c h s = (Ret a, s').
Proof. intros H. unfold try_except. now rewrite H. Qed.

Lemma try_except_caught {A} (body : M A) c h s e s' :
  body s = (Raise e, s') -> c e = true -> try_except body c h s = h s'.
Proof. intros H Hc. unfold try_except. now rewrite H, Hc. Qed.

Lemma try_except_uncaught {A} (body : M A) c h s e s' :
  body s = (Raise e, s') -> c e = false ->
  try_except body c h s = (Raise e, s').
Proof. intros H Hc. unfold try_except. now rewrite H, Hc. Qed.

Ltac eval_ops :=
  repeat (first
    [ rewrite py_mul_number
    | rewrite py_pow2_number
    | rewrite py_sub_number
    | rewrite py_div_number by assumption
    | rewrite np_sqrt_number by assumption
    | rewrite py_gt_number ];
    cbv beta iota).

Lemma Euler_body_number kE kI kL kC E I L C s :
  L <> 0 ->
  Euler_buckling_critical_load_body (number kE E) (number kI I) (number kL L)
    (number kC C) s
  = (Ret (number (kjoin (kjoin (kjoin kC kE) kI) kL)
            (C * (PI * PI) * E * I / (L * L))), s).
Proof.
  intros HL.
  assert (HLL : L * L <> 0) by nra.
  unfold Euler_buckling_critical_load_body, np_pi, pyfloat, bind.
  eval_ops.
  now rewrite kjoin_Py_r.
Qed.

Lemma Euler_body_zero_length E I C s :
  Euler_buckling_critical_load_body (pyfloat E) (pyfloat I) (pyfloat 0)
    (pyfloat C) s
  = (Raise ZeroDivisionError, s).
Proof.
  unfold Euler_buckling_critical_load_body, np_pi, pyfloat, bind.
  eval_ops.
  replace (0 * 0) with 0 by ring.
  apply py_div_Py_zero.
Qed.

Lemma radius_gyration_number kI kA I A s :
  A <> 0 -> 0 <= I / A ->
  radius_gyration (number kI I) (number kA A) s
  = (Ret (number Np (sqrt (I / A))), s).
Proof.
  intros HA Hq.
  unfold radius_gyration, radius_gyration_body, try_except, bind.
  now eval_ops.
Qed.

Lemma slenderness_ratio_number kL kk L k s :
  k <> 0 ->
  slenderness_ratio (number kL L) (number kk k) s
  = (Ret (number (kjoin kL kk) (L / k)), s).
Proof.
  intros Hk. unfold slenderness_ratio, try_except. now eval_ops.
Qed.

Lemma sqrt_ratio_pos (I A : R) : 0 < I -> 0 < A -> 0 < sqrt (I / A).
Proof.
  intros HI HA. apply sqrt_lt_R0. now apply Rdiv_lt_0_compat.
Qed.

(** The regime decision on positive arguments of any kind. *)
Lemma is_Euler_column_positive kC kE kSy kL kA kI C E Sy L A I s :
  0 < C -> 0 < E -> 0 < Sy -> 0 < A -> 0 < I ->
  is_Euler_column (number kC C) (number kE E) (number kSy Sy) (number kL L)
    (number kA A) (number kI I) s
  = (Ret (Some (if Rgt_dec (L / sqrt (I / A))
                            (sqrt (2 * (PI * PI) * C * E / Sy))
                then true else false)), s).
Proof.
  intros HC HE HSy HA HI.
  assert (HA0 : A <> 0) by lra.
  assert (Hq : 0 <= I / A) by (apply Rlt_le, Rdiv_lt_0_compat; assumption).
  assert (Hk : sqrt (I / A) <> 0)
    by (apply Rgt_not_eq, Rlt_gt, sqrt_ratio_pos; assumption).
  assert (HSy0 : Sy <> 0) by lra.
  assert (Ht : 0 <= 2 * (PI * PI) * C * E / Sy).
  { apply Rlt_le, Rdiv_lt_0_compat; [ | assumption ].
    pose proof PI_RGT_0 as Hpi.
    assert (0 < PI * PI) by nra.
    assert (0 < 2 * (PI * PI) * C) by nra.
    nra. }
  unfold is_Euler_column, try_except, bind.
  rewrite radius_gyration_number by assumption. cbv beta iota.
  rewrite slenderness_ratio_number by assumption. cbv beta iota.
  unfold np_pi, pyfloat.
  now eval_ops.
Qed.

(** ** History independence of the calls *)



















(** Two calls in a row return the same outcome and print the same lines. *)
Lemma deterministic_call_twice {A} (m : M A) :
  deterministic m ->
  forall s, exists r out,
    m s = (r, s ++ out) /\ m (s ++ out) = (r, (s ++ out) ++ out).
Proof.
  intros (r & out & H) s. exists r, out. split; apply H.
Qed.


(** ** Bounds on [PI] *)



(** ** RequiredArea *)



(** ** EulerCriticalLoad *)




(** ** IsEulerColumn *)

Lemma sqrt_lt_bound (x b : R) : 0 <= x -> 0 < b -> x < b * b -> sqrt x < b.
Proof.
  intros Hx Hb Hlt.
  rewrite <- (sqrt_square b) by lra.
  apply sqrt_lt_1_alt. lra.
Qed.

Lemma is_Euler_column_unit_section_long s :
  is_Euler_column (pyfloat 1) (pyfloat 1) (pyfloat 1) (pyfloat 6) (pyfloat 1)
    (pyfloat 1) s
  = (Ret (Some true), s).
Proof.
  unfold pyfloat. rewrite is_Euler_column_positive by lra.
  destruct (Rgt_dec _ _) as [_ | Hn]; [reflexivity | exfalso; apply Hn].
  replace (1 / 1) with 1 by field. rewrite sqrt_1.
  pose proof PI_RGT_0. pose proof PI_4.
  apply Rlt_gt.
  apply Rlt_le_trans with 6; [ | lra ].
  apply sqrt_lt_bound; nra.
Qed.



(** C7. For fixed positive [C, E, Sy, A, I] the regime decision is monotone
    in the length: if [is_Euler_column] is true at [L1] and [L1 < L2], it is
    true at [L2]. *)
Theorem is_Euler_column_monotone
  kC kE kSy kL1 kL2 kA kI C E Sy A I L1 L2 s1 s2 :
  0 < C -> 0 < E -> 0 < Sy -> 0 < A -> 0 < I ->
  L1 < L2 ->
  is_Euler_column (number kC C) (number kE E) (number kSy Sy) (number kL1 L1)
    (number kA A) (number kI I) s1
  = (Ret (Some true), s1) ->
  is_Euler_column (number kC C) (number kE E) (number kSy Sy) (number kL2 L2)
    (number kA A) (number kI I) s2
  = (Ret (Some true), s2).
Proof.
  intros HC HE HSy HA HI HL H1.
  rewrite is_Euler_column_positive in H1 by assumption.
  rewrite is_Euler_column_positive by assumption.
  destruct (Rgt_dec (L1 / _) _) as [Hgt | ]; [ | discriminate H1 ].
  destruct (Rgt_dec (L2 / _) _) as [ | Hn ]; [reflexivity | exfalso; apply Hn].
  pose proof (sqrt_ratio_pos I A HI HA) as Hk.
  apply Rlt_gt. apply Rgt_lt in Hgt.
  apply Rlt_trans with (1 := Hgt).
  unfold Rdiv. apply Rmult_lt_compat_r; [ | assumption ].
  now apply Rinv_0_lt_compat.
Qed.

Lemma is_Euler_column_monotone_witness :
  is_Euler_column (number Py 1) (number Py 1) (number Py 1) (number Py 7)
    (number Py 1) (number Py 1) []
  = (Ret (Some true), []).
Proof.
  apply (is_Euler_column_monotone Py Py Py Py Py Py Py 1 1 1 1 1 6 7 [] []);
    try lra.
  apply is_Euler_column_unit_section_long.
Defined.

(** ** JohnsonUnitCriticalLoad and JohnsonCriticalLoad *)

Lemma Jhonson_unit_positive kE kI kL kC kA kSy E I L C A Sy s :
  0 < E -> 0 < I -> 0 < C -> 0 < A ->
  Jhonson_unit_buckling_critical_load (number kE E) (number kI I)
    (number kL L) (number kC C) (number kA A) (number kSy Sy) s
  = (Ret (number Np
            (Sy - (Sy * L / (2 * PI * sqrt (I / A))) ^ 2 * (1 / (C * E)))), s).
Proof.
  intros HE HI HC HA.
  assert (HA0 : A <> 0) by lra.
  assert (Hq : 0 <= I / A) by (apply Rlt_le, Rdiv_lt_0_compat; assumption).
  pose proof (sqrt_ratio_pos I A HI HA) as Hk.
  pose proof PI_RGT_0 as Hpi.
  assert (Hd : 2 * PI * sqrt (I / A) <> 0) by nra.
  assert (Hce : C * E <> 0) by nra.
  unfold Jhonson_unit_buckling_critical_load, try_except, bind.
  rewrite radius_gyration_number by assumption. cbv beta iota.
  unfold np_pi, pyfloat.
  eval_ops.
  replace (kjoin kSy _) with Np by (destruct kSy, kL, kC, kE; reflexivity).
  do 3 f_equal. ring.
Qed.


(** ** Zero denominators *)

Lemma py_div_Np_r (x : num) (y : xreal) s :
  py_div (Some x) (Some (Num Np y)) s
  = (Ret (Some (Num Np (xdiv (nval x) y))), s).
Proof. unfold py_div. cbn [nkind nval]. now destruct (nkind x). Qed.


Lemma radius_gyration_zero_area (I : R) s :
  radius_gyration (pyfloat I) (pyfloat 0) s
  = (Ret None, s ++ [Text "Invalid area"]).
Proof.
  unfold radius_gyration, radius_gyration_body, try_except, bind, pyfloat.
  now rewrite py_div_number_zero.
Qed.

Lemma radius_gyration_nonzero_area (I A : R) s :
  A <> 0 ->
  radius_gyration (pyfloat I) (pyfloat A) s
  = (Ret (Some (Num Np (xsqrt (Fin (I / A))))), s).
Proof.
  intros HA.
  unfold radius_gyration, radius_gyration_body, try_except, bind, pyfloat.
  now rewrite py_div_number.
Qed.

Lemma slenderness_ratio_zero_radius (L : R) s :
  slenderness_ratio (pyfloat L) (pyfloat 0) s
  = (Ret None, s ++ [Text "Invalid radius of gyration"]).
Proof.
  unfold slenderness_ratio, try_except, pyfloat.
  now rewrite py_div_number_zero.
Qed.

Lemma slenderness_ratio_Np (L : num) (k : xreal) s :
  slenderness_ratio (Some L) (Some (Num Np k)) s
  = (Ret (Some (Num Np (xdiv (nval L) k))), s).
Proof.
  unfold slenderness_ratio, try_except. now rewrite py_div_Np_r.
Qed.

Lemma slenderness_ratio_None (L : pyval) s :
  slenderness_ratio L None s = (Raise TypeError, s).
Proof.
  unfold slenderness_ratio, try_except, py_div. now destruct L.
Qed.

Lemma SF_compression_zero_area (S_allow F : R) s :
  SF_compression (pyfloat S_allow) (pyfloat F) (pyfloat 0) s
  = (Ret None, s ++ [Text "Invalid input data"]).
Proof.
  unfold SF_compression, try_except, bind, pyfloat.
  now rewrite py_div_number_zero.
Qed.

Lemma SF_compression_zero_load (S_allow A : R) s :
  A <> 0 ->
  SF_compression (pyfloat S_allow) (pyfloat 0) (pyfloat A) s
  = (Ret None, s ++ [Text "Invalid input data"]).
Proof.
  intros HA.
  unfold SF_compression, try_except, bind, pyfloat.
  rewrite py_div_number by assumption. cbv beta iota.
  replace (0 / A) with 0 by (field; assumption).
  cbn [kjoin]. now rewrite py_div_number_zero.
Qed.

Lemma is_Euler_column_zero_yield (C E L A I : R) s :
  A <> 0 ->
  is_Euler_column (pyfloat C) (pyfloat E) (pyfloat 0) (pyfloat L) (pyfloat A)
    (pyfloat I) s
  = (Ret None, s ++ [Text "Invalid input data"]).
Proof.
  intros HA.
  unfold is_Euler_column, try_except, bind.
  rewrite radius_gyration_nonzero_area by assumption. cbv beta iota.
  unfold pyfloat at 1, number at 1. rewrite slenderness_ratio_Np.
  unfold np_pi, pyfloat. eval_ops. cbn [kjoin].
  now rewrite py_div_number_zero.
Qed.

Lemma Jhonson_unit_zero_CE (E I L C A Sy : R) s :
  A <> 0 -> C * E = 0 ->
  Jhonson_unit_buckling_critical_load (pyfloat E) (pyfloat I) (pyfloat L)
    (pyfloat C) (pyfloat A) (pyfloat Sy) s
  = (Ret None, s ++ [Text "Invalid input data"]).
Proof.
  intros HA Hce.
  unfold Jhonson_unit_buckling_critical_load, try_except, bind.
  rewrite radius_gyration_nonzero_area by assumption. cbv beta iota.
  unfold np_pi, pyfloat. eval_ops.
  unfold py_mul at 1, arith, ret. cbn [nkind nval number kjoin].
  change (number Py (Sy * L)) with (Some (Num Py (Fin (Sy * L)))).
  rewrite py_div_Np_r. unfold py_pow2, arith, ret. cbn [nkind nval kjoin].
  fold (number Py C) (number Py E). eval_ops. rewrite Hce. cbn [kjoin].
  now rewrite py_div_number_zero.
Qed.

Lemma Euler_number kE kI kL kC E I L C s :
  L <> 0 ->
  Euler_buckling_critical_load (number kE E) (number kI I) (number kL L)
    (number kC C) s
  = (Ret (number (kjoin (kjoin (kjoin kC kE) kI) kL)
            (C * (PI * PI) * E * I / (L * L))), s).
Proof.
  intros HL. unfold Euler_buckling_critical_load.
  apply try_except_Ret. now apply Euler_body_number.
Qed.

Lemma py_mul_None_r (a : pyval) s : py_mul a None s = (Raise TypeError, s).
Proof. unfold py_mul, arith. now destruct a. Qed.

Lemma Euler_unit_zero_area (E I L C : R) s :
  Euler_unit_buckling_critical_load (pyfloat E) (pyfloat I) (pyfloat L)
    (pyfloat C) (pyfloat 0) s
  = (Raise TypeError, s ++ [Text "Invalid area"]).
Proof.
  unfold Euler_unit_buckling_critical_load, try_except, bind.
  rewrite radius_gyration_zero_area. cbv beta iota.
  unfold np_pi, pyfloat. eval_ops.
  now rewrite slenderness_ratio_None.
Qed.

Lemma is_Euler_column_zero_area (C E Sy L I : R) s :
  is_Euler_column (pyfloat C) (pyfloat E) (pyfloat Sy) (pyfloat L) (pyfloat 0)
    (pyfloat I) s
  = (Raise TypeError, s ++ [Text "Invalid area"]).
Proof.
  unfold is_Euler_column, try_except, bind.
  rewrite radius_gyration_zero_area. cbv beta iota.
  now rewrite slenderness_ratio_None.
Qed.

Lemma Jhonson_unit_zero_area (E I L C Sy : R) s :
  Jhonson_unit_buckling_critical_load (pyfloat E) (pyfloat I) (pyfloat L)
    (pyfloat C) (pyfloat 0) (pyfloat Sy) s
  = (Raise TypeError, s ++ [Text "Invalid area"]).
Proof.
  unfold Jhonson_unit_buckling_critical_load, try_except, bind.
  rewrite radius_gyration_zero_area. cbv beta iota.
  unfold np_pi, pyfloat. eval_ops.
  now rewrite py_mul_None_r.
Qed.

Lemma Euler_unit_zero_length (E I C A : R) s :
  0 < E -> 0 < I -> 0 < C -> 0 < A ->
  Euler_unit_buckling_critical_load (pyfloat E) (pyfloat I) (pyfloat 0)
    (pyfloat C) (pyfloat A) s
  = (Ret (Some (Num Np PInf)), s).
Proof.
  intros HE HI HC HA.
  assert (HA0 : A <> 0) by lra.
  assert (Hq : 0 <= I / A) by (apply Rlt_le, Rdiv_lt_0_compat; assumption).
  assert (Hk : sqrt (I / A) <> 0)
    by (apply Rgt_not_eq, Rlt_gt, sqrt_ratio_pos; assumption).
  pose proof PI_RGT_0 as Hpi.
  assert (Hn : 0 < C * (PI * PI) * E).
  { assert (0 < PI * PI) by nra. assert (0 < C * (PI * PI)) by nra. nra. }
  unfold Euler_unit_buckling_critical_load, try_except, bind, pyfloat.
  rewrite radius_gyration_number by assumption. cbv beta iota.
  unfold np_pi, pyfloat. eval_ops.
  rewrite slenderness_ratio_number by assumption. cbv beta iota.
  eval_ops.
  replace (0 / sqrt (I / A) * (0 / sqrt (I / A))) with 0 by (field; assumption).
  cbn [kjoin]. unfold number. rewrite py_div_Np_r. cbn [nval].
  unfold xdiv. rewrite is_zero_zero, Rsign_pos by assumption. reflexivity.
Qed.


(** ** SafetyFactorBuckling *)

(** C1. When the regime decision returns a boolean [b], [SF_buckling] calls
    the Euler critical-load method exactly when [b] is true and the Johnson
    one exactly when [b] is false, announcing the formula it selected; and
    when that call returns [p] and the division succeeds, [SF_buckling]
    returns [p / F]. *)
Theorem SF_buckling_dispatch E I L C A Sy F (b : bool) p sf s s1 s2 s3 :
  is_Euler_column C E Sy L A I s = (Ret (Some b), s1) ->
  (if b then Euler_buckling_critical_load E I L C
   else Jhonson_buckling_critical_load E I L C A Sy)
    (s1 ++ [if b then Euler_used else Johnson_used])
  = (Ret p, s2) ->
  py_div p F (s2 ++ [CritLoadText p]) = (Ret sf, s3) ->
  SF_buckling E I L C A Sy F s = (Ret sf, s3).
Proof.
  intros Hdec Hcrit Hdiv.
  unfold SF_buckling. apply try_except_Ret.
  rewrite (bind_Ret _ _ _ _ _ Hdec).
  destruct b; cbn [truthy] in *.
  - unfold bind at 1. unfold bind at 1. unfold print at 1.
    rewrite Hcrit. unfold bind, print. exact Hdiv.
  - unfold bind at 1. unfold bind at 1. unfold print at 1.
    rewrite Hcrit. unfold bind, print. exact Hdiv.
Qed.

Lemma SF_buckling_dispatch_witness :
  SF_buckling (pyfloat 1) (pyfloat 1) (pyfloat 6) (pyfloat 1) (pyfloat 1)
    (pyfloat 1) (pyfloat 2) []
  = (Ret (number Py (1 * (PI * PI) * 1 * 1 / (6 * 6) / 2)),
     [Euler_used;
      CritLoadText (number Py (1 * (PI * PI) * 1 * 1 / (6 * 6)))]).
Proof.
  apply (SF_buckling_dispatch (pyfloat 1) (pyfloat 1) (pyfloat 6) (pyfloat 1)
           (pyfloat 1) (pyfloat 1) (pyfloat 2) true
           (number Py (1 * (PI * PI) * 1 * 1 / (6 * 6)))
           (number Py (1 * (PI * PI) * 1 * 1 / (6 * 6) / 2))
           [] [] [Euler_used]).
  - apply is_Euler_column_unit_section_long.
  - unfold pyfloat. rewrite Euler_number by lra. reflexivity.
  - unfold pyfloat. rewrite py_div_number by lra. reflexivity.
Defined.

Lemma SF_buckling_after_None E I L C A Sy F s s1 :
  is_Euler_column C E Sy L A I s = (Ret None, s1) ->
  SF_buckling E I L C A Sy F s
  = try_except
      (p_crit <- Jhonson_buckling_critical_load E I L C A Sy ;;
       print (CritLoadText p_crit) ;;
       py_div p_crit F)
      any_Exception
      (print (Text "Invalid input data") ;; ret None)
      (s1 ++ [Johnson_used]).
Proof.
  intros Hdec.
  unfold SF_buckling, try_except.
  rewrite (bind_Ret _ _ _ _ _ Hdec). cbn [truthy].
  reflexivity.
Qed.

(** C10. When [is_Euler_column] returns [None], [SF_buckling] takes the
    absent result as false: it announces the Johnson formula and continues
    exactly as its Johnson branch does, from the console [is_Euler_column]
    left. *)
Theorem SF_buckling_None_is_Johnson E I L C A Sy F s s1 :
  is_Euler_column C E Sy L A I s = (Ret None, s1) ->
  SF_buckling E I L C A Sy F s
  = try_except
      (p_crit <- Jhonson_buckling_critical_load E I L C A Sy ;;
       print (CritLoadText p_crit) ;;
       py_div p_crit F)
      any_Exception
      (print (Text "Invalid input data") ;; ret None)
      (s1 ++ [Johnson_used]).
Proof. exact (SF_buckling_after_None E I L C A Sy F s s1). Qed.

Lemma SF_buckling_None_is_Johnson_witness :
  SF_buckling (pyfloat 1) (pyfloat 1) (pyfloat 1) (pyfloat 1) (pyfloat 1)
    (pyfloat 0) (pyfloat 1) []
  = try_except
      (p_crit <- Jhonson_buckling_critical_load (pyfloat 1) (pyfloat 1)
                   (pyfloat 1) (pyfloat 1) (pyfloat 1) (pyfloat 0) ;;
       print (CritLoadText p_crit) ;;
       py_div p_crit (pyfloat 1))
      any_Exception
      (print (Text "Invalid input data") ;; ret None)
      (([] ++ [Text "Invalid input data"]) ++ [Johnson_used]).
Proof.
  apply (SF_buckling_None_is_Johnson (pyfloat 1) (pyfloat 1) (pyfloat 1)
           (pyfloat 1) (pyfloat 1) (pyfloat 0) (pyfloat 1) []).
  apply is_Euler_column_zero_yield. lra.
Defined.

Lemma Jhonson_positive kE kI kL kC kA kSy E I L C A Sy s :
  0 < E -> 0 < I -> 0 < C -> 0 < A ->
  Jhonson_buckling_critical_load (number kE E) (number kI I) (number kL L)
    (number kC C) (number kA A) (number kSy Sy) s
  = (Ret (number Np
            ((Sy - (Sy * L / (2 * PI * sqrt (I / A))) ^ 2 * (1 / (C * E)))
             * A)), s).
Proof.
  intros HE HI HC HA.
  unfold Jhonson_buckling_critical_load, bind.
  rewrite Jhonson_unit_positive by assumption.
  now rewrite py_mul_number.
Qed.

Lemma SF_buckling_zero_yield_unit_column :
  SF_buckling (pyfloat 1) (pyfloat 1) (pyfloat 1) (pyfloat 1) (pyfloat 1)
    (pyfloat 0) (pyfloat 1) []
  = (Ret (npfloat 0),
     [Text "Invalid input data"; Johnson_used; CritLoadText (npfloat 0)]).
Proof.
  rewrite (SF_buckling_after_None _ _ _ _ _ _ _ []
             ([] ++ [Text "Invalid input data"]))
    by (apply is_Euler_column_zero_yield; lra).
  unfold try_except, bind, pyfloat.
  rewrite Jhonson_positive by lra.
  replace ((0 - (0 * 1 / (2 * PI * sqrt (1 / 1))) ^ 2 * (1 / (1 * 1))) * 1)
    with 0 by (unfold Rdiv; ring).
  unfold print. rewrite py_div_number by lra.
  replace (0 / 1) with 0 by field.
  reflexivity.
Qed.

(** Two more evaluations with a zero radius of gyration, which
    [radius_gyration] returns as a [numpy.float64]: the divisions by it do
    not raise. *)

Example slenderness_ratio_numpy_zero s :
  slenderness_ratio (pyfloat 2) (npfloat 0) s = (Ret (Some (Num Np PInf)), s).
Proof.
  unfold pyfloat, npfloat, number. rewrite slenderness_ratio_Np.
  cbn [nval]. unfold xdiv. rewrite is_zero_zero, Rsign_pos by lra.
  reflexivity.
Qed.

Example Jhonson_unit_zero_inertia s :
  Jhonson_unit_buckling_critical_load (pyfloat 1) (pyfloat 0) (pyfloat 1)
    (pyfloat 1) (pyfloat 1) (pyfloat 1) s
  = (Ret (Some (Num Np NInf)), s).
Proof.
  unfold Jhonson_unit_buckling_critical_load, try_except, bind.
  rewrite radius_gyration_nonzero_area by lra. cbv beta iota.
  replace (0 / 1) with 0 by field.
  rewrite xsqrt_fin, sqrt_0 by lra.
  unfold np_pi, pyfloat. fold (number Np 0). eval_ops.
  replace (2 * PI * 0) with 0 by ring.
  cbn [kjoin]. unfold number at 1 2. rewrite py_div_Np_r. cbn [nval].
  unfold xdiv at 1. rewrite is_zero_zero, Rsign_pos by lra. cbv beta iota.
  unfold py_pow2, arith, ret. cbn [nkind nval kjoin xmul xsign inf_of sign_mul].
  rewrite py_mul_number. cbv beta iota.
  rewrite py_div_number by lra. cbv beta iota.
  unfold py_mul, py_sub, arith, ret, number.
  cbn [nkind nval kjoin xmul xsign inf_of sign_mul].
  rewrite Rsign_pos by lra. reflexivity.
Qed.

Example xreal_arithmetic :
  xmul PInf (Fin 0) = NaN /\ xdiv PInf PInf = NaN /\ xdiv (Fin 1) NInf = Fin 0
  /\ xsub PInf PInf = NaN /\ xsub (Fin 1) PInf = NInf
  /\ xgt PInf (Fin 1) = true /\ xgt (Fin 1) NInf = true
  /\ xgt NInf NInf = false /\ xgt NaN NaN = false /\ xsqrt NInf = NaN.
Proof.
  repeat split; try reflexivity.
  cbn [xmul xsign]. now rewrite Rsign_zero.
Qed.

(** ** Error handling *)

(** C5, counterexample.  With a zero yield strength the regime decision
    prints 'Invalid input data' and returns [None]; [SF_buckling] does not
    fail: it goes on with the Johnson formula and returns the number 0. *)
Lemma zero_yield_strength_returns_a_number :
  SF_buckling (pyfloat 1) (pyfloat 1) (pyfloat 1) (pyfloat 1) (pyfloat 1)
    (pyfloat 0) (pyfloat 1) []
  = (Ret (npfloat 0),
     [Text "Invalid input data"; Johnson_used; CritLoadText (npfloat 0)])
  /\ ~ (exists e s',
           SF_buckling (pyfloat 1) (pyfloat 1) (pyfloat 1) (pyfloat 1)
             (pyfloat 1) (pyfloat 0) (pyfloat 1) []
           = (Raise e, s')).
Proof.
  split.
  - apply SF_buckling_zero_yield_unit_column.
  - intros (e & s' & H).
    rewrite SF_buckling_zero_yield_unit_column in H. discriminate H.
Qed.

(** C5, amended.  On Python numbers, a zero divisor in a method's own
    division is detected by that method: [area_req_compression] raises
    [ZeroDivisionError] to its caller; [Euler_buckling_critical_load]
    ([L = 0]), [radius_gyration] ([A = 0]), [slenderness_ratio] ([k = 0]),
    [SF_compression] ([A = 0] or [F = 0]), [is_Euler_column] ([Sy = 0]) and
    [Jhonson_unit_buckling_critical_load] ([C * E = 0]) catch it, print
    their diagnostic line and return [None]; no infinity is returned. *)
Theorem zero_divisor_detected :
  (forall F s,
      area_req_compression (pyfloat F) (pyfloat 0) s
      = (Raise ZeroDivisionError, s))
  /\ (forall E I C s,
         Euler_buckling_critical_load (pyfloat E) (pyfloat I) (pyfloat 0)
           (pyfloat C) s
         = (Ret None, s ++ [Text "Invalid length"]))
  /\ (forall I s,
         radius_gyration (pyfloat I) (pyfloat 0) s
         = (Ret None, s ++ [Text "Invalid area"]))
  /\ (forall L s,
         slenderness_ratio (pyfloat L) (pyfloat 0) s
         = (Ret None, s ++ [Text "Invalid radius of gyration"]))
  /\ (forall S_allow F s,
         SF_compression (pyfloat S_allow) (pyfloat F) (pyfloat 0) s
         = (Ret None, s ++ [Text "Invalid input data"]))
  /\ (forall S_allow A s,
         A <> 0 ->
         SF_compression (pyfloat S_allow) (pyfloat 0) (pyfloat A) s
         = (Ret None, s ++ [Text "Invalid input data"]))
  /\ (forall C E L A I s,
         A <> 0 ->
         is_Euler_column (pyfloat C) (pyfloat E) (pyfloat 0) (pyfloat L)
           (pyfloat A) (pyfloat I) s
         = (Ret None, s ++ [Text "Invalid input data"]))
  /\ (forall E I L C A Sy s,
         A <> 0 -> C * E = 0 ->
         Jhonson_unit_buckling_critical_load (pyfloat E) (pyfloat I)
           (pyfloat L) (pyfloat C) (pyfloat A) (pyfloat Sy) s
         = (Ret None, s ++ [Text "Invalid input data"])).
Proof.
  repeat split.
  - intros F s. unfold area_req_compression, pyfloat.
    apply py_div_number_zero.
  - intros E I C s. unfold Euler_buckling_critical_load.
    erewrite try_except_caught
      by (first [apply Euler_body_zero_length | reflexivity]).
    reflexivity.
  - exact radius_gyration_zero_area.
  - exact slenderness_ratio_zero_radius.
  - exact SF_compression_zero_area.
  - exact SF_compression_zero_load.
  - exact is_Euler_column_zero_yield.
  - exact Jhonson_unit_zero_CE.
Qed.

Lemma zero_divisor_detected_witness :
  SF_compression (pyfloat 1) (pyfloat 0) (pyfloat 1) []
  = (Ret None, [] ++ [Text "Invalid input data"])
  /\ is_Euler_column (pyfloat 1) (pyfloat 1) (pyfloat 0) (pyfloat 1)
       (pyfloat 1) (pyfloat 1) []
     = (Ret None, [] ++ [Text "Invalid input data"])
  /\ Jhonson_unit_buckling_critical_load (pyfloat 0) (pyfloat 1) (pyfloat 1)
       (pyfloat 1) (pyfloat 1) (pyfloat 1) []
     = (Ret None, [] ++ [Text "Invalid input data"]).
Proof.
  destruct zero_divisor_detected
    as (_ & _ & _ & _ & _ & Hload & Hyield & Hce).
  split; [ | split ].
  - apply Hload. lra.
  - apply Hyield. lra.
  - apply Hce; lra.
Defined.

(** C9, the code at the failing inputs.  With a zero area
    [radius_gyration] prints 'Invalid area' and returns [None], and the
    next operation on that [None] raises [TypeError], which no
    zero-division handler catches: the call raises to its caller.  With a
    zero length [Euler_unit_buckling_critical_load] divides by a
    [numpy.float64] zero and returns [inf] without printing. *)
Theorem zero_area_raises_TypeError :
  (forall E I L C s,
      Euler_unit_buckling_critical_load (pyfloat E) (pyfloat I) (pyfloat L)
        (pyfloat C) (pyfloat 0) s
      = (Raise TypeError, s ++ [Text "Invalid area"]))
  /\ (forall C E Sy L I s,
         is_Euler_column (pyfloat C) (pyfloat E) (pyfloat Sy) (pyfloat L)
           (pyfloat 0) (pyfloat I) s
         = (Raise TypeError, s ++ [Text "Invalid area"]))
  /\ (forall E I L C Sy s,
         Jhonson_unit_buckling_critical_load (pyfloat E) (pyfloat I)
           (pyfloat L) (pyfloat C) (pyfloat 0) (pyfloat Sy) s
         = (Raise TypeError, s ++ [Text "Invalid area"]))
  /\ (forall s,
         Euler_unit_buckling_critical_load (pyfloat 1) (pyfloat 1) (pyfloat 0)
           (pyfloat 1) (pyfloat 1) s
         = (Ret (Some (Num Np PInf)), s)).
Proof.
  repeat split.
  - exact Euler_unit_zero_area.
  - exact is_Euler_column_zero_area.
  - exact Jhonson_unit_zero_area.
  - intros s. apply Euler_unit_zero_length; lra.
Qed.

(** ** Determinism *)


(** * Further properties of the methods *)

(** ** Evaluation on positive arguments *)








(** ** Compression *)






(** ** Euler loads *)





(** ** The two regimes *)








(** ** SafetyFactorBuckling, end to end *)









(** ** What the methods can raise *)


Lemma arith_not_ZeroDivisionError f a b s s' :
  arith f a b s <> (Raise ZeroDivisionError, s').
Proof. unfold arith, ret, raise. destruct a, b; discriminate. Qed.

(** A division returns a number and leaves the console alone, or raises. *)
Lemma py_div_Ret a b v s s' :
  py_div a b s = (Ret v, s') -> s' = s /\ exists n, v = Some n.
Proof.
  unfold py_div, ret, raise.
  destruct a as [[[] x] | ], b as [[[] y] | ]; cbn [nkind nval];
    try destruct (is_zero y); intros H; inversion H; eauto.
Qed.


(** A [try] whose handler prints and returns never lets the caught
    exception out. *)
Lemma handled_not_ZeroDivisionError {A} (body : M A) l (v : A) s s' :
  try_except body only_ZeroDivisionError (print l ;; ret v) s
  <> (Raise ZeroDivisionError, s').
Proof.
  unfold try_except, bind, print, ret.
  destruct (body s) as [[a | []] s0]; cbn [only_ZeroDivisionError];
    discriminate.
Qed.

Lemma SF_buckling_returns E I L C A Sy F s :
  exists v s',
    SF_buckling E I L C A Sy F s = (Ret v, s')
    /\ match v with
       | None => exists s0, s' = s0 ++ [Text "Invalid input data"]
       | Some _ => exists s0 p, s' = s0 ++ [CritLoadText p]
       end.
Proof.
  unfold SF_buckling, try_except.
  match goal with |- context [match ?body s with _ => _ end] =>
    destruct (body s) as [[a | e] s'] eqn:Hb end.
  - exists a, s'. split; [reflexivity | ].
    unfold bind at 1 in Hb.
    destruct (is_Euler_column C E Sy L A I s) as [[b | e] s1];
      [ | discriminate Hb ].
    unfold bind at 1 in Hb.
    match type of Hb with context [match ?m s1 with _ => _ end] =>
      destruct (m s1) as [[p | e] s2]; [ | discriminate Hb ] end.
    unfold bind, print in Hb.
    apply py_div_Ret in Hb. destruct Hb as [-> [n ->]]. eauto.
  - exists None, (s' ++ [Text "Invalid input data"]).
    split; [reflexivity | eauto].
Qed.

(** X10. [SF_buckling] never raises, whatever its arguments ([None]
    included): it returns a number, and then the last line printed is the
    critical load, or it returns [None], and then the last line printed is
    'Invalid input data'. *)
Theorem SF_buckling_never_raises E I L C A Sy F s :
  exists v s',
    SF_buckling E I L C A Sy F s = (Ret v, s')
    /\ match v with
       | None => exists s0, s' = s0 ++ [Text "Invalid input data"]
       | Some _ => exists s0 p, s' = s0 ++ [CritLoadText p]
       end.
Proof. exact (SF_buckling_returns E I L C A Sy F s). Qed.

(** X11. Apart from [area_req_compression], no method lets a
    [ZeroDivisionError] reach its caller, whatever the arguments. *)
Theorem ZeroDivisionError_is_contained :
  (forall E I L C s s',
      Euler_buckling_critical_load E I L C s <> (Raise ZeroDivisionError, s'))
  /\ (forall I A s s',
         radius_gyration I A s <> (Raise ZeroDivisionError, s'))
  /\ (forall L k s s',
         slenderness_ratio L k s <> (Raise ZeroDivisionError, s'))
  /\ (forall E I L C A s s',
         Euler_unit_buckling_critical_load E I L C A s
         <> (Raise ZeroDivisionError, s'))
  /\ (forall C E Sy L A I s s',
         is_Euler_column C E Sy L A I s <> (Raise ZeroDivisionError, s'))
  /\ (forall E I L C A Sy s s',
         Jhonson_unit_buckling_critical_load E I L C A Sy s
         <> (Raise ZeroDivisionError, s'))
  /\ (forall E I L C A Sy s s',
         Jhonson_buckling_critical_load E I L C A Sy s
         <> (Raise ZeroDivisionError, s'))
  /\ (forall S_allow F A s s',
         SF_compression S_allow F A s <> (Raise ZeroDivisionError, s'))
  /\ (forall E I L C A Sy F s s',
         SF_buckling E I L C A Sy F s <> (Raise ZeroDivisionError, s')).
Proof.
  repeat split; intros; try apply handled_not_ZeroDivisionError.
  - unfold Jhonson_buckling_critical_load, bind.
    destruct (Jhonson_unit_buckling_critical_load E I L C A Sy s)
      as [[u | e] s0] eqn:Hu.
    + apply arith_not_ZeroDivisionError.
    + intros H. inversion H; subst.
      now apply handled_not_ZeroDivisionError in Hu.
  - destruct (SF_buckling_returns E I L C A Sy F s) as (v & s0 & -> & _).
    discriminate.
Qed.

(** ** Numeric arguments of any kind and value *)








(** ** A negative ratio of inertia to area *)




(** ** The regime decision without square roots *)


